(** * Finance hooks of the Ozon FBS dashboard

    A shallow embedding of [src/hooks/useFinanceData.ts]: the two query
    functions [useFinanceData] (summary with RPC-then-postings fallback and
    the pie-chart categories) and [useFinanceBreakdown] (ledger rows).

    Number model.  A JavaScript [number] is modelled as an exact rational
    or [NaN]; rounding, underflow and the infinities of IEEE-754 doubles
    are outside the model, so decimal literals such as [0.08] denote
    [8/100] exactly.  [NaN] is kept because the source guards against it
    with [x || 0] and with comparisons, which are false on [NaN].

    The statements are kept to what does not hinge on exact arithmetic:
    the formula of a field as the code computes it, signs, order, bounds
    that rounding to nearest respects, and which shares, rows and errors
    are returned.  Nothing is stated about what the percentages of a
    chart or the products of the postings rows add up to, nor about
    regrouped products: there doubles and rationals differ (see
    [binary64_rounds]). *)

From Stdlib Require Import QArith Qabs Lqa Lia List String Bool.
From Stdlib Require Import Sorted Permutation SpecFloat.
Import ListNotations.
Open Scope Q_scope.

(** ** JavaScript numbers and values *)

Inductive number : Type :=
| NaN
| Num (q : Q).

(** Strict comparison on rationals, as a boolean. *)
Definition Qlt_bool (x y : Q) : bool := negb (Qle_bool y x).

(** [x > 0], [x < 0] on numbers: false on [NaN]. *)
Definition gt0 (x : number) : bool :=
  match x with NaN => false | Num q => Qlt_bool 0 q end.

Definition lt0 (x : number) : bool :=
  match x with NaN => false | Num q => Qlt_bool q 0 end.

(** [x || 0] for a number [x]: [NaN] and zero are falsy. *)
Definition orZero (x : number) : Q :=
  match x with
  | NaN => 0
  | Num q => if Qeq_bool q 0 then 0 else q
  end.

(** [Math.abs] on numbers. *)
Definition Math_abs (x : number) : number :=
  match x with NaN => NaN | Num q => Num (Qabs q) end.

(** The rational a number stands for.  It is read only under a guard
    [x > 0] or [x < 0], where [x] is not [NaN]. *)
Definition numOr0 (x : number) : Q :=
  match x with NaN => 0 | Num q => q end.

(** A field of a row as it arrives from the backend. *)
Inductive JsValue : Type :=
| JsNull
| JsUndefined
| JsNumber (n : number)
| JsNonNumeric (payload : string).

(** [s || d] for a nullable string: [null] and the empty string are falsy. *)
Definition strOr (s : option string) (d : string) : string :=
  match s with
  | Some x => if String.eqb x EmptyString then d else x
  | None => d
  end.

(** Modelled from the spec: [toNumber] of [src/lib/format] is not part of
    the sources at hand.  The spec describes it as a normalisation
    [unknown -> number] that sends null, missing and non-numeric inputs to
    [0] and never yields [NaN]; numeric inputs are passed through.  The
    development below is parametric in [toNumber]; this model serves the
    concrete runs. *)
Definition toNumberModel (v : JsValue) : number :=
  match v with
  | JsNumber (Num q) => Num q
  | JsNumber NaN => Num 0
  | JsNull | JsUndefined | JsNonNumeric _ => Num 0
  end.

(** ** Data model *)

Record FinanceCategory : Type := mkFinanceCategory {
  category : string;
  amount : Q;
  percentage : Q;
  color : string
}.

Record FinanceSummary : Type := mkFinanceSummary {
  sales : Q;
  commissions : Q;
  delivery : Q;
  returns : Q;
  ads : Q;
  services : Q;
  totalIncome : Q;
  totalExpenses : Q;
  netProfit : Q
}.

(** The property names of a [FinanceSummary], in insertion order. *)
Inductive SummaryKey : Type :=
| Ksales | Kcommissions | Kdelivery | Kreturns | Kads | Kservices
| KtotalIncome | KtotalExpenses | KnetProfit.

Definition CATEGORY_COLORS (k : SummaryKey) : option string :=
  match k with
  | Ksales => Some "#10b981"
  | Kcommissions => Some "#ef4444"
  | Kdelivery => Some "#f59e0b"
  | Kreturns => Some "#8b5cf6"
  | Kads => Some "#06b6d4"
  | Kservices => Some "#84cc16"
  | _ => None
  end%string.

Definition CATEGORY_LABELS (k : SummaryKey) : option string :=
  match k with
  | Ksales => Some "Продажи"
  | Kcommissions => Some "Комиссии"
  | Kdelivery => Some "Доставка"
  | Kreturns => Some "Возвраты"
  | Kads => Some "Реклама"
  | Kservices => Some "Услуги"
  | _ => None
  end%string.

(** [Object.entries(summary)]. *)
Definition Object_entries (s : FinanceSummary) : list (SummaryKey * Q) :=
  [ (Ksales, sales s); (Kcommissions, commissions s);
    (Kdelivery, delivery s); (Kreturns, returns s);
    (Kads, ads s); (Kservices, services s);
    (KtotalIncome, totalIncome s); (KtotalExpenses, totalExpenses s);
    (KnetProfit, netProfit s) ].

Definition isSales (k : SummaryKey) : bool :=
  match k with Ksales => true | _ => false end.

(** The body of the [forEach] callback: push a share for a category key
    whose value is not zero. *)
Definition pushCategory (total : Q) (categories : list FinanceCategory)
    (entry : SummaryKey * Q) : list FinanceCategory :=
  let (key, value) := entry in
  match CATEGORY_COLORS key with
  | Some col =>
      if negb (Qeq_bool value 0) then
        let amount := if isSales key then value else Qabs value in
        categories ++
          [ {| category := match CATEGORY_LABELS key with
                           | Some l => l
                           | None => "undefined"
                           end;
               amount := amount;
               percentage := if Qlt_bool 0 total
                             then (amount / total) * 100
                             else 0;
               color := col |} ]
      else categories
  | None => categories
  end.

(** The categories array before sorting. *)
Definition buildCategories (summary : FinanceSummary) : list FinanceCategory :=
  let total := totalIncome summary + totalExpenses summary in
  fold_left (pushCategory total) (Object_entries summary) [].

(** [Array.prototype.sort(cmp)]: a stable sort; [a] stays in front of [b]
    unless [cmp a b > 0]. *)
Section ArraySort.
Context {A : Type} (cmp : A -> A -> Q).

Fixpoint insertBy (x : A) (l : list A) : list A :=
  match l with
  | [] => [x]
  | y :: ys => if Qle_bool (cmp x y) 0 then x :: y :: ys
               else y :: insertBy x ys
  end.

Fixpoint Array_sort (l : list A) : list A :=
  match l with
  | [] => []
  | x :: xs => insertBy x (Array_sort xs)
  end.
End ArraySort.

Definition byAmountDesc (a b : FinanceCategory) : Q := amount b - amount a.

Record FinanceData : Type := mkFinanceData {
  summary : FinanceSummary;
  categories : list FinanceCategory
}.

Definition withCategories (s : FinanceSummary) : FinanceData :=
  {| summary := s;
     categories := Array_sort byAmountDesc (buildCategories s) |}.

(** ** Backend rows, responses and effects *)

(** A row of [get_finance_summary]. *)
Record RpcRow : Type := mkRpcRow {
  total_sales : JsValue;
  total_commissions : JsValue;
  total_delivery : JsValue;
  total_returns : JsValue;
  total_ads : JsValue;
  total_services : JsValue;
  total_income : JsValue;
  total_expenses : JsValue;
  net_profit : JsValue
}.

(** The object literal [{}]: every property reads as [undefined]. *)
Definition emptyObject : RpcRow :=
  mkRpcRow JsUndefined JsUndefined JsUndefined JsUndefined JsUndefined
           JsUndefined JsUndefined JsUndefined JsUndefined.

(** A row of [postings_fbs] restricted to the selected columns. *)
Record PostingRow : Type := mkPostingRow {
  price : JsValue;
  quantity : JsValue;
  commission_amount : JsValue
}.

(** A row of [transactions] restricted to the columns the mapping reads. *)
Record TransactionRow : Type := mkTransactionRow {
  posting_number : option string;
  operation_type : option string;
  operation_type_name : option string;
  operation_date : option string;
  tx_amount : JsValue
}.

(** A row of the ledger breakdown. *)
Record BreakdownRow : Type := mkBreakdownRow {
  date_msk : string;
  row_posting_number : string;
  row_sales : Q;
  row_commissions : Q;
  row_delivery : Q;
  row_returns : Q;
  row_ads : Q;
  row_services : Q;
  row_net_profit : Q;
  row_operation_type : string
}.

Inductive JsError : Type := mkJsError (message : string).

(** The [{ data, error }] pair every Supabase call resolves to. *)
Record Response (A : Type) : Type := mkResponse {
  data : option A;
  error : option JsError
}.
Arguments mkResponse {A} _ _.
Arguments data {A} _.
Arguments error {A} _.

(** What the backend answers to the three queries the hooks issue for the
    active filters.  A query that fails answers with [error] set; the
    formatting of the date range and [parseInt] on the SKU, which only
    shape the queries, are taken to return normally. *)
Record Backend : Type := mkBackend {
  rpc_get_finance_summary : Response (list RpcRow);
  from_postings_fbs : Response (list PostingRow);
  from_transactions : Response (list TransactionRow)
}.

(** The part of the filter state that steers control flow. *)
Record Filters : Type := mkFilters {
  sku : option string;
  region : option string
}.

Definition truthy (s : option string) : bool :=
  match s with
  | Some x => negb (String.eqb x EmptyString)
  | None => false
  end.

(** Observable effects of a query function, in order of occurrence. *)
Inductive Event : Type :=
| CallRpc
| WarnRpcFailed (rpcError : JsError)
| QueryPostings (withSku : bool)
| WarnRegionNotImplemented
| ErrorBothFailed (postingsError : JsError)
| QueryTransactions.

(** Computations that log events and either throw or return. *)
Module Eff.
Definition t (A : Type) : Type := list Event -> (JsError + A) * list Event.

Definition ret {A} (x : A) : t A := fun log => (inr x, log).

Definition bind {A B} (c : t A) (k : A -> t B) : t B :=
  fun log =>
    match c log with
    | (inl e, log') => (inl e, log')
    | (inr x, log') => k x log'
    end.

Definition throw {A} (e : JsError) : t A := fun log => (inl e, log).

Definition emit (ev : Event) : t unit := fun log => (inr tt, log ++ [ev]).

(** [try { body } catch (e) { handler e }]: what the body logged before
    throwing stays logged. *)
Definition tryCatch {A} (body : t A) (handler : JsError -> t A) : t A :=
  fun log =>
    match body log with
    | (inl e, log') => handler e log'
    | (inr x, log') => (inr x, log')
    end.

Definition when (b : bool) (c : t unit) : t unit :=
  if b then c else ret tt.

Definition run {A} (c : t A) : (JsError + A) * list Event := c [].
End Eff.

Notation "x <- c ;; k" := (Eff.bind c (fun x => k))
  (at level 61, c at next level, right associativity).
Notation "c ;;; k" := (Eff.bind c (fun _ => k))
  (at level 61, right associativity).

(** ** The query functions *)

Section Hooks.
(** [toNumber] from [src/lib/format] and the formatted current date
    [formatMoscowDate(new Date())] are taken as given. *)
Variable toNumber : JsValue -> number.
Variable today : string.
Variable backend : Backend.
Variable filters : Filters.

(** [toNumber(v) || 0]. *)
Definition num (v : JsValue) : Q := orZero (toNumber v).

(** [data?.[0] || {}]. *)
Definition firstRow (d : option (list RpcRow)) : RpcRow :=
  match d with
  | Some (r :: _) => r
  | _ => emptyObject
  end.

(** The summary of the primary path, from the RPC result. *)
Definition rpcSummary (d : option (list RpcRow)) : FinanceSummary :=
  let result := firstRow d in
  {| sales := num (total_sales result);
     commissions := num (total_commissions result);
     delivery := num (total_delivery result);
     returns := num (total_returns result);
     ads := num (total_ads result);
     services := num (total_services result);
     totalIncome := num (total_income result);
     totalExpenses := num (total_expenses result);
     netProfit := num (net_profit result) |}.

(** [postingsData?.reduce(f, 0) || 0] for a reducer into numbers. *)
Definition reduceOr0 (f : Q -> PostingRow -> Q)
    (d : option (list PostingRow)) : Q :=
  match d with
  | Some rows => orZero (Num (fold_left f rows 0))
  | None => 0
  end.

Definition addSale (sum : Q) (item : PostingRow) : Q :=
  let price := num (price item) in
  let quantity := num (quantity item) in
  sum + price * quantity.

Definition addCommission (sum : Q) (item : PostingRow) : Q :=
  let commission := num (commission_amount item) in
  sum + Qabs commission.

(** The summary of the fallback path, from the postings rows. *)
Definition postingsSummary (d : option (list PostingRow)) : FinanceSummary :=
  let totalSales := reduceOr0 addSale d in
  let totalCommissions := reduceOr0 addCommission d in
  let totalDelivery := totalSales * (8 # 100) in
  let totalReturns := totalSales * (2 # 100) in
  let totalAds := totalSales * (3 # 100) in
  let totalServices := totalSales * (5 # 100) in
  let totalExpenses :=
    totalCommissions + totalDelivery + totalReturns + totalAds
    + totalServices in
  {| sales := totalSales;
     commissions := totalCommissions;
     delivery := totalDelivery;
     returns := totalReturns;
     ads := totalAds;
     services := totalServices;
     totalIncome := totalSales;
     totalExpenses := totalExpenses;
     netProfit := totalSales - totalExpenses |}.

Definition supabase_rpc : Eff.t (Response (list RpcRow)) :=
  Eff.emit CallRpc ;;; Eff.ret (rpc_get_finance_summary backend).

Definition await_postingsQuery : Eff.t (Response (list PostingRow)) :=
  Eff.emit (QueryPostings (truthy (sku filters))) ;;;
  Eff.ret (from_postings_fbs backend).

Definition await_transactions : Eff.t (Response (list TransactionRow)) :=
  Eff.emit QueryTransactions ;;; Eff.ret (from_transactions backend).

(** The try block: priority 1, the RPC. *)
Definition primaryPath : Eff.t FinanceData :=
  r <- supabase_rpc ;;
  match error r with
  | Some e => Eff.throw e
  | None => Eff.ret (withCategories (rpcSummary (data r)))
  end.

(** The catch block: priority 2, the postings table. *)
Definition fallbackPath (rpcError : JsError) : Eff.t FinanceData :=
  Eff.emit (WarnRpcFailed rpcError) ;;;
  Eff.when (truthy (region filters)) (Eff.emit WarnRegionNotImplemented) ;;;
  r <- await_postingsQuery ;;
  match error r with
  | Some postingsError =>
      Eff.emit (ErrorBothFailed postingsError) ;;;
      Eff.throw postingsError
  | None => Eff.ret (withCategories (postingsSummary (data r)))
  end.

(** [queryFn] of [useFinanceData]. *)
Definition useFinanceData : Eff.t FinanceData :=
  Eff.tryCatch primaryPath fallbackPath.

(** The callback of [map] in [useFinanceBreakdown]. *)
Definition mapTransaction (item : TransactionRow) : BreakdownRow :=
  {| date_msk := strOr (operation_date item) today;
     row_posting_number := strOr (posting_number item) "N/A";
     row_sales :=
       if gt0 (toNumber (tx_amount item))
       then numOr0 (toNumber (tx_amount item)) else 0;
     row_commissions :=
       if lt0 (toNumber (tx_amount item))
       then numOr0 (Math_abs (toNumber (tx_amount item))) else 0;
     row_delivery := 0;
     row_returns := 0;
     row_ads := 0;
     row_services := 0;
     row_net_profit := num (tx_amount item);
     row_operation_type :=
       strOr (operation_type_name item)
             (strOr (operation_type item) "N/A") |}.

(** [queryFn] of [useFinanceBreakdown]. *)
Definition useFinanceBreakdown : Eff.t (list BreakdownRow) :=
  r <- await_transactions ;;
  match error r with
  | Some e => Eff.throw e
  | None =>
      Eff.ret (map mapTransaction
                   (match data r with Some rows => rows | None => [] end))
  end.
End Hooks.

(** * The fallback arithmetic on IEEE-754 doubles

    The same steps as [postingsSummary], on binary64 numbers with
    round-to-nearest-even, for rows whose three columns are already
    numbers.  It serves to check that the exact-rational reading of the
    figures of a run agrees with what double arithmetic gives. *)

Module Binary64.
Definition prec : Z := 53.
Definition emax : Z := 1024.

Definition ofZ (z : Z) : spec_float := binary_normalize prec emax z 0 false.
Definition add : spec_float -> spec_float -> spec_float := SFadd prec emax.
Definition sub : spec_float -> spec_float -> spec_float := SFsub prec emax.
Definition mul : spec_float -> spec_float -> spec_float := SFmul prec emax.
Definition div : spec_float -> spec_float -> spec_float := SFdiv prec emax.

(** The double a decimal literal [n/d] denotes: the nearest one. *)
Definition decimal (n d : Z) : spec_float := div (ofZ n) (ofZ d).

(** [x || 0]. *)
Definition orZero (x : spec_float) : spec_float :=
  match x with
  | S754_nan | S754_zero _ => S754_zero false
  | _ => x
  end.

Record Row : Type := mkRow {
  price : spec_float;
  quantity : spec_float;
  commission_amount : spec_float
}.

Record Summary : Type := mkSummary {
  sales : spec_float;
  commissions : spec_float;
  delivery : spec_float;
  returns : spec_float;
  ads : spec_float;
  services : spec_float;
  totalIncome : spec_float;
  totalExpenses : spec_float;
  netProfit : spec_float
}.

Definition postingsSummary (rows : list Row) : Summary :=
  let totalSales :=
    orZero (fold_left
              (fun sum item =>
                 add sum (mul (orZero (price item)) (orZero (quantity item))))
              rows (S754_zero false)) in
  let totalCommissions :=
    orZero (fold_left
              (fun sum item =>
                 add sum (SFabs (orZero (commission_amount item))))
              rows (S754_zero false)) in
  let totalDelivery := mul totalSales (decimal 8 100) in
  let totalReturns := mul totalSales (decimal 2 100) in
  let totalAds := mul totalSales (decimal 3 100) in
  let totalServices := mul totalSales (decimal 5 100) in
  let totalExpenses :=
    add (add (add (add totalCommissions totalDelivery) totalReturns)
             totalAds) totalServices in
  {| sales := totalSales;
     commissions := totalCommissions;
     delivery := totalDelivery;
     returns := totalReturns;
     ads := totalAds;
     services := totalServices;
     totalIncome := totalSales;
     totalExpenses := totalExpenses;
     netProfit := sub totalSales totalExpenses |}.
End Binary64.

(** * Vocabulary of the statements *)

(** The log entry of the region warning, if any. *)
Definition regionWarning (filters : Filters) : list Event :=
  if truthy (region filters) then [WarnRegionNotImplemented] else [].

(** What [pushCategory] appends for one entry. *)
Definition pushed (total : Q) (entry : SummaryKey * Q) : list FinanceCategory :=
  pushCategory total [] entry.

(** The share pushed for a category key. *)
Definition shareOf (total : Q) (key : SummaryKey) (value : Q) (col : string)
  : FinanceCategory :=
  let amount := if isSales key then value else Qabs value in
  {| category := match CATEGORY_LABELS key with
                 | Some l => l
                 | None => "undefined"
                 end;
     amount := amount;
     percentage := if Qlt_bool 0 total then (amount / total) * 100 else 0;
     color := col |}.

(** [a] may stand in front of [b]. *)
Definition amountGe (a b : FinanceCategory) : Prop := amount b <= amount a.

(** The sum of the percentages of a list of shares. *)
Definition sumPercentage (l : list FinanceCategory) : Q :=
  fold_right (fun c acc => percentage c + acc) 0 l.

(** * Concrete inputs *)

Definition jsnum (q : Q) : JsValue := JsNumber (Num q).

Definition succeeded {A} (rows : A) : Response A := mkResponse (Some rows) None.

Definition failed {A} (msg : string) : Response A :=
  mkResponse None (Some (mkJsError msg)).

Definition noFilters : Filters := mkFilters None None.

(** A backend whose RPC answers with the one row given. *)
Definition rpcBackend (row : RpcRow) : Backend :=
  mkBackend (succeeded [row]) (succeeded []) (succeeded []).

(** An RPC row whose [net_profit] column is [0] although income is [100]
    and expenses are [30]. *)
Definition skewedRow : RpcRow :=
  mkRpcRow (jsnum 100) (jsnum 30) (jsnum 0) (jsnum 0) (jsnum 0) (jsnum 0)
           (jsnum 100) (jsnum 30) (jsnum 0).

(** Expenses stored as negative amounts, as the builder allows for. *)
Definition signedRow : RpcRow :=
  mkRpcRow (jsnum 100) (jsnum (-30)) (jsnum 0) (jsnum 0) (jsnum 0) (jsnum 0)
           (jsnum 100) (jsnum (-30)) (jsnum 70).

(** A period whose expenses, stored negative, outweigh the income. *)
Definition lossRow : RpcRow :=
  mkRpcRow (jsnum 10) (jsnum 0) (jsnum 0) (jsnum 0) (jsnum 0) (jsnum 0)
           (jsnum 10) (jsnum (-30)) (jsnum (-20)).

(** A period whose sales column is negative. *)
Definition refundRow : RpcRow :=
  mkRpcRow (jsnum (-5)) (jsnum 0) (jsnum 0) (jsnum 0) (jsnum 0) (jsnum 0)
           (jsnum 10) (jsnum 0) (jsnum 10).

(** The RPC is down; the postings table holds one order. *)
Definition oneOrder : PostingRow :=
  mkPostingRow (jsnum 100) (jsnum 2) (jsnum (-10)).

Definition rpcDownBackend : Backend :=
  mkBackend (failed "rpc 404") (succeeded [oneOrder]) (succeeded []).

(** The RPC and both tables are down; the region filter is set. *)
Definition allDownBackend : Backend :=
  mkBackend (failed "rpc 404") (failed "postings 500")
            (failed "transactions 500").

Definition regionFilters : Filters :=
  (mkFilters (Some "1234567") (Some "Москва"))%string.

(** The summaries of three of the runs, each with its sales share. *)
Definition oneOrderSummary : FinanceSummary :=
  postingsSummary toNumberModel (Some [oneOrder]).

Definition oneOrderSalesShare : FinanceCategory :=
  shareOf (totalIncome oneOrderSummary + totalExpenses oneOrderSummary)
          Ksales (sales oneOrderSummary) "#10b981".

Definition skewedSummary : FinanceSummary :=
  rpcSummary toNumberModel (Some [skewedRow]).

Definition skewedSalesShare : FinanceCategory :=
  shareOf (totalIncome skewedSummary + totalExpenses skewedSummary)
          Ksales (sales skewedSummary) "#10b981".

Definition lossSummary : FinanceSummary :=
  rpcSummary toNumberModel (Some [lossRow]).

Definition lossSalesShare : FinanceCategory :=
  shareOf (totalIncome lossSummary + totalExpenses lossSummary)
          Ksales (sales lossSummary) "#10b981".

(** Three ledger entries: a commission with label and code, a sale with a
    code only, and an entry with an empty label, no code and no amount. *)
Definition commissionEntry : TransactionRow :=
  (mkTransactionRow (Some "0042-1") (Some "MarketplaceServiceItemFee")
                    (Some "Комиссия") (Some "2025-08-01")
                    (jsnum (-50)))%string.

Definition saleEntry : TransactionRow :=
  (mkTransactionRow (Some "0042-2")
                    (Some "OperationAgentDeliveredToCustomer")
                    None (Some "2025-08-02") (jsnum 30))%string.

Definition bareEntry : TransactionRow :=
  (mkTransactionRow None None (Some EmptyString) None JsNull)%string.

Definition ledgerBackend : Backend :=
  mkBackend (failed "rpc 404") (failed "postings 500")
            (succeeded [commissionEntry; saleEntry; bareEntry]).

(** * Vocabulary of the further properties *)

(** Whether an entry of the summary gets a share: a category key with a
    value that is not zero. *)
Definition isShown (entry : SummaryKey * Q) : bool :=
  match CATEGORY_COLORS (fst entry) with
  | Some _ => negb (Qeq_bool (snd entry) 0)
  | None => false
  end.

(** [a] may stand in front of [b], by percentage. *)
Definition percentageGe (a b : FinanceCategory) : Prop :=
  percentage b <= percentage a.

(** [a] occurs in [l] at a position in front of an occurrence of [b]. *)
Definition before {A : Type} (a b : A) (l : list A) : Prop :=
  exists l1 l2 l3, l = l1 ++ a :: l2 ++ b :: l3.

(** Field-wise equality of summaries, and the summary of nothing. *)
Definition summaryEq (s s' : FinanceSummary) : Prop :=
  sales s == sales s' /\ commissions s == commissions s'
  /\ delivery s == delivery s' /\ returns s == returns s'
  /\ ads s == ads s' /\ services s == services s'
  /\ totalIncome s == totalIncome s'
  /\ totalExpenses s == totalExpenses s'
  /\ netProfit s == netProfit s'.

Definition zeroSummary : FinanceSummary :=
  mkFinanceSummary 0 0 0 0 0 0 0 0 0.

(** The sum of a column over a list of rows. *)
Definition sumOf {A : Type} (f : A -> Q) (l : list A) : Q :=
  fold_right (fun x acc => f x + acc) 0 l.



(** The one-order summary in another unit (twice the figures) and with
    the expense fields stored negative. *)
Definition flippedSummary : FinanceSummary :=
  mkFinanceSummary 400 (-20) (-32) (-8) (-12) (-20) 400 92 308.

(** The postings table answers with no rows, the RPC being down. *)
Definition noRowsBackend : Backend :=
  mkBackend (failed "rpc 404") (succeeded []) (succeeded []).

(** The RPC answers without any row. *)
Definition emptyRpcBackend : Backend :=
  mkBackend (succeeded []) (failed "postings 500") (succeeded []).

(** * Properties *)

(** ** Arithmetic helpers *)

Lemma Qlt_bool_iff (x y : Q) : Qlt_bool x y = true <-> x < y.
Proof.
  unfold Qlt_bool. rewrite negb_true_iff.
  split; intro H.
  - apply Qnot_le_lt. intro Hle. apply Qle_bool_iff in Hle. congruence.
  - destruct (Qle_bool y x) eqn:E; [|reflexivity].
    apply Qle_bool_iff in E. exfalso. apply (Qlt_not_le _ _ H E).
Qed.

Lemma Qlt_bool_false_iff (x y : Q) : Qlt_bool x y = false <-> y <= x.
Proof.
  unfold Qlt_bool. rewrite negb_false_iff. apply Qle_bool_iff.
Qed.

Lemma Qeq_bool_false_iff (x y : Q) : Qeq_bool x y = false <-> ~ x == y.
Proof.
  split; intro H.
  - intro E. apply Qeq_bool_iff in E. congruence.
  - destruct (Qeq_bool x y) eqn:E; [|reflexivity].
    apply Qeq_bool_iff in E. contradiction.
Qed.

Lemma orZero_Num (q : Q) : orZero (Num q) == q.
Proof.
  simpl. destruct (Qeq_bool q 0) eqn:E; [|reflexivity].
  apply Qeq_bool_iff in E. symmetry. exact E.
Qed.

(** ** Runs of the two query functions *)

Section Runs.
Variable toNumber : JsValue -> number.
Variable today : string.
Variable backend : Backend.
Variable filters : Filters.

Lemma useFinanceData_run :
  Eff.run (useFinanceData toNumber backend filters) =
  match error (rpc_get_finance_summary backend) with
  | None =>
      (inr (withCategories
              (rpcSummary toNumber (data (rpc_get_finance_summary backend)))),
       [CallRpc])
  | Some rpcError =>
      match error (from_postings_fbs backend) with
      | None =>
          (inr (withCategories
                  (postingsSummary toNumber
                     (data (from_postings_fbs backend)))),
           [CallRpc; WarnRpcFailed rpcError] ++ regionWarning filters
           ++ [QueryPostings (truthy (sku filters))])
      | Some postingsError =>
          (inl postingsError,
           [CallRpc; WarnRpcFailed rpcError] ++ regionWarning filters
           ++ [QueryPostings (truthy (sku filters));
               ErrorBothFailed postingsError])
      end
  end.
Proof.
  unfold Eff.run, useFinanceData, Eff.tryCatch, primaryPath, fallbackPath,
    supabase_rpc, await_postingsQuery, regionWarning, Eff.bind, Eff.emit,
    Eff.ret, Eff.throw, Eff.when.
  simpl.
  destruct (error (rpc_get_finance_summary backend)) as [rpcError|];
    [|reflexivity].
  simpl.
  destruct (truthy (region filters)); simpl;
    destruct (error (from_postings_fbs backend)); reflexivity.
Qed.

Lemma useFinanceBreakdown_run :
  Eff.run (useFinanceBreakdown toNumber today backend) =
  (match error (from_transactions backend) with
   | Some e => inl e
   | None =>
       inr (map (mapTransaction toNumber today)
                (match data (from_transactions backend) with
                 | Some rows => rows
                 | None => []
                 end))
   end,
   [QueryTransactions]).
Proof.
  unfold Eff.run, useFinanceBreakdown, await_transactions, Eff.bind,
    Eff.emit, Eff.ret, Eff.throw.
  simpl.
  destruct (error (from_transactions backend)); reflexivity.
Qed.
End Runs.

(** ** Sample runs *)

Example run_rpc_down :
  Eff.run (useFinanceData toNumberModel rpcDownBackend noFilters)
  = (inr (withCategories oneOrderSummary),
     [CallRpc; WarnRpcFailed (mkJsError "rpc 404"); QueryPostings false]).
Proof. reflexivity. Qed.

Example run_all_down :
  Eff.run (useFinanceData toNumberModel allDownBackend regionFilters)
  = (inl (mkJsError "postings 500"),
     [CallRpc; WarnRpcFailed (mkJsError "rpc 404");
      WarnRegionNotImplemented; QueryPostings true;
      ErrorBothFailed (mkJsError "postings 500")]).
Proof. reflexivity. Qed.

Example run_rpc_up :
  Eff.run (useFinanceData toNumberModel (rpcBackend skewedRow) regionFilters)
  = (inr (withCategories skewedSummary), [CallRpc]).
Proof. reflexivity. Qed.

(** Commissions and services tie at [10]; the sort keeps their order. *)
Example one_order_labels :
  map category (categories (withCategories oneOrderSummary))
  = ["Продажи"; "Доставка"; "Комиссии"; "Услуги"; "Реклама";
     "Возвраты"]%string.
Proof. reflexivity. Qed.

Example one_order_amounts :
  Forall2 Qeq (map amount (categories (withCategories oneOrderSummary)))
              [200; 16; 10; 10; 6; 4].
Proof. repeat constructor. Qed.

(** No row from the RPC: every field is [0] and no share is pushed. *)
Example rpc_no_rows :
  withCategories (rpcSummary toNumberModel (Some []))
  = {| summary := mkFinanceSummary 0 0 0 0 0 0 0 0 0; categories := [] |}.
Proof. reflexivity. Qed.

Example run_ledger_down :
  Eff.run (useFinanceBreakdown toNumberModel "2025-08-29" allDownBackend)
  = (inl (mkJsError "transactions 500"), [QueryTransactions]).
Proof. reflexivity. Qed.

(** On doubles the one-order run gives the same figures, without any
    rounding error: [0.08], [0.02], [0.03] and [0.05] are not
    representable, but their products with [200] round to the integers. *)
Example one_order_binary64 :
  Binary64.postingsSummary
    [Binary64.mkRow (Binary64.ofZ 100) (Binary64.ofZ 2) (Binary64.ofZ (-10))]
  = Binary64.mkSummary
      (Binary64.ofZ 200) (Binary64.ofZ 10) (Binary64.ofZ 16)
      (Binary64.ofZ 4) (Binary64.ofZ 6) (Binary64.ofZ 10)
      (Binary64.ofZ 200) (Binary64.ofZ 46) (Binary64.ofZ 154).
Proof. vm_compute. reflexivity. Qed.

Example binary64_rounds :
  Binary64.mul (Binary64.ofZ 3) (Binary64.decimal 1 10)
  <> Binary64.decimal 3 10.
Proof. vm_compute. discriminate. Qed.

(** ** C1: net profit *)

(** C1 (as stated, refuted): on the primary path the summary carries the
    [net_profit] column of the RPC row as it is; for the row [skewedRow]
    the returned summary has [netProfit = 0] while
    [totalIncome - totalExpenses = 70]. *)
Lemma netProfit_primary_counterexample :
  exists fd,
    fst (Eff.run (useFinanceData toNumberModel (rpcBackend skewedRow) noFilters))
      = inr fd
    /\ ~ netProfit (summary fd)
         == totalIncome (summary fd) - totalExpenses (summary fd).
Proof.
  eexists. split; [reflexivity|].
  vm_compute. discriminate.
Qed.

(** C1 (amended): every summary the resolver returns on the fallback path
    satisfies [netProfit = totalIncome - totalExpenses]; on the primary
    path [netProfit] is the coerced [net_profit] column of the first RPC
    row. *)
Theorem netProfit_by_path
    (toNumber : JsValue -> number) (b : Backend) (f : Filters)
    (fd : FinanceData) :
  fst (Eff.run (useFinanceData toNumber b f)) = inr fd ->
  match error (rpc_get_finance_summary b) with
  | Some _ =>
      netProfit (summary fd)
      = totalIncome (summary fd) - totalExpenses (summary fd)
  | None =>
      netProfit (summary fd)
      = num toNumber (net_profit (firstRow (data (rpc_get_finance_summary b))))
  end.
Proof.
  rewrite useFinanceData_run.
  destruct (error (rpc_get_finance_summary b)) as [rpcError|].
  - destruct (error (from_postings_fbs b)); simpl; intro H.
    + discriminate.
    + injection H as <-. reflexivity.
  - simpl. intro H. injection H as <-. reflexivity.
Qed.

Lemma netProfit_by_path_witness :
  let fd := withCategories (postingsSummary toNumberModel (Some [oneOrder])) in
  fst (Eff.run (useFinanceData toNumberModel rpcDownBackend noFilters))
    = inr fd
  /\ netProfit (summary fd)
     = totalIncome (summary fd) - totalExpenses (summary fd).
Proof.
  split; [reflexivity|].
  exact (netProfit_by_path toNumberModel rpcDownBackend noFilters _ eq_refl).
Defined.

(** ** C2: which failures reach the caller *)

(** C2: the summary resolver throws [e] exactly when the RPC failed and the
    postings query then failed with [e]; an RPC failure is logged as a
    warning and followed by the postings query, after which nothing else is
    queried; the ledger resolver issues its one query and throws exactly
    the error of that query. *)
Theorem errors_surface_only_from_last_tier
    (toNumber : JsValue -> number) (today : string)
    (b : Backend) (f : Filters) :
  (forall e,
     fst (Eff.run (useFinanceData toNumber b f)) = inl e
     <-> (exists rpcError,
            error (rpc_get_finance_summary b) = Some rpcError)
         /\ error (from_postings_fbs b) = Some e)
  /\ snd (Eff.run (useFinanceData toNumber b f))
     = match error (rpc_get_finance_summary b) with
       | None => [CallRpc]
       | Some rpcError =>
           [CallRpc; WarnRpcFailed rpcError] ++ regionWarning f
           ++ [QueryPostings (truthy (sku f))]
           ++ match error (from_postings_fbs b) with
              | Some postingsError => [ErrorBothFailed postingsError]
              | None => []
              end
       end
  /\ (forall e,
        fst (Eff.run (useFinanceBreakdown toNumber today b)) = inl e
        <-> error (from_transactions b) = Some e)
  /\ snd (Eff.run (useFinanceBreakdown toNumber today b))
     = [QueryTransactions].
Proof.
  rewrite useFinanceData_run, useFinanceBreakdown_run.
  split; [|split; [|split]].
  - intro e.
    destruct (error (rpc_get_finance_summary b)) as [rpcError|];
      [destruct (error (from_postings_fbs b)) as [postingsError|]|];
      simpl; split.
    + intro H. injection H as ->. split; [eexists|]; reflexivity.
    + intros [_ H]. injection H as ->. reflexivity.
    + discriminate.
    + intros [_ H]. discriminate.
    + discriminate.
    + intros [[rpcError H] _]. discriminate.
  - destruct (error (rpc_get_finance_summary b)) as [rpcError|];
      [destruct (error (from_postings_fbs b))|]; reflexivity.
  - intro e. simpl.
    destruct (error (from_transactions b)); split; congruence.
  - reflexivity.
Qed.

(** ** The categories array *)

Lemma pushCategory_app total acc entry :
  pushCategory total acc entry = acc ++ pushed total entry.
Proof.
  unfold pushed, pushCategory. destruct entry as [key value].
  destruct (CATEGORY_COLORS key); [|now rewrite app_nil_r].
  destruct (negb (Qeq_bool value 0)); [reflexivity|now rewrite app_nil_r].
Qed.

Lemma fold_pushCategory total entries acc :
  fold_left (pushCategory total) entries acc
  = acc ++ flat_map (pushed total) entries.
Proof.
  revert acc. induction entries as [|e es IH]; intro acc; simpl.
  - now rewrite app_nil_r.
  - rewrite IH, pushCategory_app, <- app_assoc. reflexivity.
Qed.

Lemma buildCategories_flat_map s :
  buildCategories s
  = flat_map (pushed (totalIncome s + totalExpenses s)) (Object_entries s).
Proof. unfold buildCategories. now rewrite fold_pushCategory. Qed.

Lemma In_pushed total key value c :
  In c (pushed total (key, value)) <->
  exists col, CATEGORY_COLORS key = Some col /\ ~ value == 0
              /\ c = shareOf total key value col.
Proof.
  unfold pushed, pushCategory.
  destruct (CATEGORY_COLORS key) as [col|].
  - destruct (Qeq_bool value 0) eqn:E; simpl.
    + apply Qeq_bool_iff in E. split; [tauto|].
      intros (col' & _ & Hnz & _). contradiction.
    + apply Qeq_bool_false_iff in E. split.
      * intros [<-|[]]. exists col. repeat split; assumption.
      * intros (col' & Hcol & _ & ->). injection Hcol as <-.
        left. reflexivity.
  - simpl. split; [tauto|]. intros (col & Hcol & _). discriminate.
Qed.

Lemma In_buildCategories s c :
  In c (buildCategories s) <->
  exists key value col,
    In (key, value) (Object_entries s)
    /\ CATEGORY_COLORS key = Some col /\ ~ value == 0
    /\ c = shareOf (totalIncome s + totalExpenses s) key value col.
Proof.
  rewrite buildCategories_flat_map, in_flat_map. split.
  - intros ([key value] & Hin & Hc). apply In_pushed in Hc.
    destruct Hc as (col & H). exists key, value, col. tauto.
  - intros (key & value & col & Hin & H). exists (key, value).
    split; [assumption|]. apply In_pushed. exists col. exact H.
Qed.

(** ** Sorting *)

Section ArraySortFacts.
Context {A : Type} (cmp : A -> A -> Q).

Lemma insertBy_perm x l : Permutation (insertBy cmp x l) (x :: l).
Proof.
  induction l as [|y ys IH]; simpl.
  - apply Permutation_refl.
  - destruct (Qle_bool (cmp x y) 0).
    + apply Permutation_refl.
    + eapply Permutation_trans; [apply perm_skip, IH|apply perm_swap].
Qed.

Lemma Array_sort_perm l : Permutation (Array_sort cmp l) l.
Proof.
  induction l as [|x xs IH]; simpl.
  - constructor.
  - eapply Permutation_trans; [apply insertBy_perm|].
    apply perm_skip, IH.
Qed.

Lemma In_Array_sort l x : In x (Array_sort cmp l) <-> In x l.
Proof.
  split; apply Permutation_in;
    [|apply Permutation_sym]; apply Array_sort_perm.
Qed.
End ArraySortFacts.

Lemma insertBy_amount_sorted x l :
  StronglySorted amountGe l ->
  StronglySorted amountGe (insertBy byAmountDesc x l).
Proof.
  induction 1 as [|y ys Hs IH Hall]; simpl.
  - repeat constructor.
  - unfold byAmountDesc at 1.
    destruct (Qle_bool (amount y - amount x) 0) eqn:E.
    + apply Qle_bool_iff in E.
      assert (Hxy : amountGe x y) by (unfold amountGe; lra).
      constructor; [constructor; assumption|].
      constructor; [assumption|].
      eapply Forall_impl; [|exact Hall].
      unfold amountGe in *. intros z Hz. lra.
    + assert (Hyx : amountGe y x).
      { unfold amountGe.
        destruct (Qlt_le_dec (amount y) (amount x)) as [Hlt|Hle];
          [|assumption].
        exfalso. assert (Hb : Qle_bool (amount y - amount x) 0 = true)
          by (apply Qle_bool_iff; lra).
        congruence. }
      constructor; [assumption|].
      apply (Permutation_Forall (Permutation_sym (insertBy_perm _ x ys))).
      constructor; assumption.
Qed.

Lemma Array_sort_amount_sorted l :
  StronglySorted amountGe (Array_sort byAmountDesc l).
Proof.
  induction l as [|x xs IH]; simpl.
  - constructor.
  - apply insertBy_amount_sorted, IH.
Qed.

(** ** C9: order of the categories *)

(** C9: the returned categories are the pushed categories rearranged so
    that no share stands in front of one with a larger amount. *)
Theorem categories_sorted_desc (s : FinanceSummary) :
  StronglySorted amountGe (categories (withCategories s))
  /\ Permutation (categories (withCategories s)) (buildCategories s).
Proof.
  split.
  - apply Array_sort_amount_sorted.
  - apply Array_sort_perm.
Qed.

(** ** Shares of the returned list *)

Lemma CATEGORY_LABELS_inj k1 k2 l :
  CATEGORY_LABELS k1 = Some l -> CATEGORY_LABELS k2 = Some l -> k1 = k2.
Proof.
  destruct k1, k2; simpl; intros H1 H2; try reflexivity;
    try discriminate; rewrite <- H1 in H2; discriminate.
Qed.

Lemma CATEGORY_LABELS_defined k col :
  CATEGORY_COLORS k = Some col -> exists l, CATEGORY_LABELS k = Some l.
Proof. destruct k; simpl; intro H; try discriminate; eexists; reflexivity. Qed.

Lemma Object_entries_functional s k v1 v2 :
  In (k, v1) (Object_entries s) -> In (k, v2) (Object_entries s) -> v1 = v2.
Proof.
  simpl. intros H1 H2.
  repeat (destruct H1 as [H1|H1]; [injection H1 as <- <-|]);
    try contradiction;
    repeat (destruct H2 as [H2|H2];
            [first [discriminate H2 | injection H2 as <-; reflexivity]|]);
    contradiction.
Qed.

(** Every returned share was pushed for a category key with a value that
    is not zero. *)
Lemma In_categories s c :
  In c (categories (withCategories s)) <->
  exists key value col,
    In (key, value) (Object_entries s)
    /\ CATEGORY_COLORS key = Some col /\ ~ value == 0
    /\ c = shareOf (totalIncome s + totalExpenses s) key value col.
Proof.
  unfold withCategories. simpl. rewrite In_Array_sort.
  apply In_buildCategories.
Qed.

Lemma shareOf_amount_nonzero total key value col :
  ~ value == 0 -> ~ amount (shareOf total key value col) == 0.
Proof.
  intros Hnz. simpl. destruct (isSales key); [assumption|].
  intro H. apply Hnz.
  destruct (Qlt_le_dec value 0) as [Hneg|Hpos].
  - rewrite Qabs_neg in H by lra. lra.
  - rewrite Qabs_pos in H by assumption. exact H.
Qed.

Lemma oneOrderSalesShare_In :
  In oneOrderSalesShare (categories (withCategories oneOrderSummary)).
Proof. vm_compute. left. reflexivity. Qed.

(** ** C8: no share with amount zero *)

(** C8: no returned share has amount [0], and a category key whose summary
    field is [0] has no share in the list. *)
Theorem zero_categories_excluded (s : FinanceSummary) (c : FinanceCategory) :
  In c (categories (withCategories s)) ->
  ~ amount c == 0
  /\ forall key value label,
       In (key, value) (Object_entries s) ->
       CATEGORY_LABELS key = Some label ->
       value == 0 ->
       category c <> label.
Proof.
  intro Hin. apply In_categories in Hin.
  destruct Hin as (key & value & col & Hin & Hcol & Hnz & ->).
  split.
  - apply shareOf_amount_nonzero, Hnz.
  - intros key' value' label Hin' Hlabel Hzero Hcat.
    destruct (CATEGORY_LABELS_defined _ _ Hcol) as [l Hl].
    simpl in Hcat. rewrite Hl in Hcat. subst l.
    assert (key = key') by (eapply CATEGORY_LABELS_inj; eassumption).
    subst key'.
    assert (value = value') by (eapply Object_entries_functional; eassumption).
    subst value'. contradiction.
Qed.

Lemma skewedSalesShare_In :
  In skewedSalesShare (categories (withCategories skewedSummary)).
Proof. vm_compute. left. reflexivity. Qed.

Lemma zero_categories_excluded_witness :
  In skewedSalesShare (categories (withCategories skewedSummary))
  /\ ~ amount skewedSalesShare == 0
  /\ category skewedSalesShare <> "Доставка"%string.
Proof.
  pose proof (zero_categories_excluded skewedSummary skewedSalesShare
                skewedSalesShare_In) as [Hnz Hex].
  split; [exact skewedSalesShare_In|].
  split; [exact Hnz|].
  apply (Hex Kdelivery (delivery skewedSummary)).
  - simpl. right. right. left. reflexivity.
  - reflexivity.
  - reflexivity.
Defined.

(** ** C4: the percentage of a share *)

Lemma shareOf_percentage total key value col :
  percentage (shareOf total key value col)
  = if Qlt_bool 0 total
    then (amount (shareOf total key value col) / total) * 100
    else 0.
Proof. reflexivity. Qed.

Lemma In_categories_percentage s c :
  In c (categories (withCategories s)) ->
  percentage c
  = if Qlt_bool 0 (totalIncome s + totalExpenses s)
    then (amount c / (totalIncome s + totalExpenses s)) * 100
    else 0.
Proof.
  intro Hin. apply In_categories in Hin.
  destruct Hin as (key & value & col & _ & _ & _ & ->).
  apply shareOf_percentage.
Qed.

(** C4 (as stated, refuted): for the RPC row [lossRow] the total is [-20];
    the sales share has amount [10] and percentage [0], not
    [100 * 10 / -20]. *)
Lemma percentage_negative_total_counterexample :
  exists fd c,
    fst (Eff.run (useFinanceData toNumberModel (rpcBackend lossRow) noFilters))
      = inr fd
    /\ In c (categories fd)
    /\ ~ percentage c
         == 100 * amount c
            / (totalIncome (summary fd) + totalExpenses (summary fd)).
Proof.
  eexists. eexists. split; [reflexivity|].
  split; [vm_compute; left; reflexivity|].
  vm_compute. discriminate.
Qed.

(** C4 (amended): with [total = totalIncome + totalExpenses], every
    returned share has [percentage = 100 * amount / total] when
    [total > 0] and [percentage = 0] when [total <= 0]; no division by
    zero takes place. *)
Theorem percentage_formula (s : FinanceSummary) (c : FinanceCategory) :
  In c (categories (withCategories s)) ->
  (0 < totalIncome s + totalExpenses s ->
   percentage c == 100 * amount c / (totalIncome s + totalExpenses s))
  /\ (totalIncome s + totalExpenses s <= 0 -> percentage c == 0).
Proof.
  intro Hin. rewrite (In_categories_percentage s c Hin).
  split; intro H.
  - apply Qlt_bool_iff in H. rewrite H. unfold Qdiv. ring.
  - apply Qlt_bool_false_iff in H. rewrite H. reflexivity.
Qed.

Lemma percentage_formula_witness :
  In oneOrderSalesShare (categories (withCategories oneOrderSummary))
  /\ 0 < totalIncome oneOrderSummary + totalExpenses oneOrderSummary
  /\ percentage oneOrderSalesShare
     == 100 * amount oneOrderSalesShare
        / (totalIncome oneOrderSummary + totalExpenses oneOrderSummary).
Proof.
  assert (Hpos : 0 < totalIncome oneOrderSummary
                     + totalExpenses oneOrderSummary)
    by (vm_compute; reflexivity).
  split; [exact oneOrderSalesShare_In|].
  split; [exact Hpos|].
  exact (proj1 (percentage_formula oneOrderSummary oneOrderSalesShare
                  oneOrderSalesShare_In) Hpos).
Defined.

(** ** C5: ranges of amount and percentage *)

(** C5 (as stated, refuted): for the RPC row [refundRow] the sales field is
    [-5] and the returned sales share has amount [-5] and percentage
    [-50]. *)
Lemma negative_sales_share_counterexample :
  exists fd c,
    fst (Eff.run
           (useFinanceData toNumberModel (rpcBackend refundRow) noFilters))
      = inr fd
    /\ In c (categories fd)
    /\ ~ (0 <= amount c /\ 0 <= percentage c /\ percentage c <= 100).
Proof.
  eexists. eexists. split; [reflexivity|].
  split; [vm_compute; left; reflexivity|].
  intros [H _]. vm_compute in H. apply H. reflexivity.
Qed.

(** C5 (amended): a returned share of commissions, delivery, returns, ads
    or services has a positive amount, and the sales share carries the
    sales field as it is; a share with a non-negative amount has a
    non-negative percentage, and the percentage is at most [100] when the
    amount does not exceed [totalIncome + totalExpenses] or that total is
    not positive. *)
Theorem share_ranges (s : FinanceSummary) (c : FinanceCategory) :
  In c (categories (withCategories s)) ->
  (category c <> "Продажи"%string -> 0 < amount c)
  /\ (category c = "Продажи"%string -> amount c = sales s)
  /\ (0 <= amount c -> 0 <= percentage c)
  /\ (amount c <= totalIncome s + totalExpenses s
      \/ totalIncome s + totalExpenses s <= 0 ->
      percentage c <= 100).
Proof.
  intro Hin. apply In_categories in Hin.
  destruct Hin as (key & value & col & Hin & Hcol & Hnz & ->).
  rewrite shareOf_percentage.
  set (total := totalIncome s + totalExpenses s).
  split; [|split; [|split]].
  - destruct key; simpl in *; try discriminate Hcol;
      try (intros _; pose proof (Qabs_nonneg value);
           pose proof (shareOf_amount_nonzero total Kcommissions value col Hnz)
             as Ha; simpl in Ha; lra).
    intro H. congruence.
  - intro Hcat.
    assert (key = Ksales)
      by (destruct key; simpl in *; try discriminate; reflexivity).
    subst key. simpl.
    eapply Object_entries_functional; [exact Hin|]. simpl. left. reflexivity.
  - intro Hpos. destruct (Qlt_bool 0 total) eqn:E; [|lra].
    apply Qlt_bool_iff in E.
    apply Qmult_le_0_compat; [|lra].
    apply Qle_shift_div_l; [assumption|]. lra.
  - intro H. destruct (Qlt_bool 0 total) eqn:E; [|lra].
    apply Qlt_bool_iff in E.
    destruct H as [H|H]; [|lra].
    assert (Hdiv : amount (shareOf total key value col) / total <= 1)
      by (apply Qle_shift_div_r; [assumption|lra]).
    lra.
Qed.

Lemma share_ranges_witness :
  In oneOrderSalesShare (categories (withCategories oneOrderSummary))
  /\ amount oneOrderSalesShare = sales oneOrderSummary
  /\ 0 <= percentage oneOrderSalesShare
  /\ percentage oneOrderSalesShare <= 100.
Proof.
  pose proof (share_ranges oneOrderSummary oneOrderSalesShare
                oneOrderSalesShare_In) as (_ & Hsales & Hlo & Hhi).
  split; [exact oneOrderSalesShare_In|].
  split; [exact (Hsales eq_refl)|].
  split.
  - apply Hlo. vm_compute. discriminate.
  - apply Hhi. left. vm_compute. discriminate.
Defined.

(** ** Signs on the fallback path *)

Lemma orZero_nonneg q : 0 <= q -> 0 <= orZero (Num q).
Proof. intro H. rewrite orZero_Num. exact H. Qed.

Lemma fold_addCommission_nonneg toNumber rows acc :
  0 <= acc -> 0 <= fold_left (addCommission toNumber) rows acc.
Proof.
  revert acc. induction rows as [|r rows IH]; intros acc Hacc; simpl.
  - exact Hacc.
  - apply IH. unfold addCommission.
    pose proof (Qabs_nonneg (num toNumber (commission_amount r))). lra.
Qed.

Lemma postings_commissions_nonneg toNumber d :
  0 <= commissions (postingsSummary toNumber d).
Proof.
  simpl. destruct d as [rows|]; simpl reduceOr0; [|lra].
  apply orZero_nonneg, fold_addCommission_nonneg. lra.
Qed.

(** ** C3: the sum of the percentages *)

(** C3 (as stated, refuted): for the RPC row [signedRow], with commissions
    and total expenses stored as [-30], the total is [70] while the shares
    have amounts [100] and [30]; the percentages add up to more than
    [100]. *)
Lemma percentage_sum_counterexample :
  exists fd,
    fst (Eff.run
           (useFinanceData toNumberModel (rpcBackend signedRow) noFilters))
      = inr fd
    /\ ~ sumPercentage (categories fd) <= 100.
Proof.
  eexists. split; [reflexivity|].
  intro H. vm_compute in H. apply H. reflexivity.
Qed.

Lemma lossSalesShare_In :
  In lossSalesShare (categories (withCategories lossSummary)).
Proof. vm_compute. left. reflexivity. Qed.

Lemma sumPercentage_zero l :
  (forall c, In c l -> percentage c = 0) -> sumPercentage l == 0.
Proof.
  induction l as [|c l IH]; intro H; simpl; [reflexivity|].
  rewrite (H c (or_introl eq_refl)), IH; [ring|].
  intros c' Hc'. apply H. right. exact Hc'.
Qed.

(** Whichever path produced it, the result pairs a summary with the
    categories built and sorted from it. *)
Lemma useFinanceData_result toNumber b f fd :
  fst (Eff.run (useFinanceData toNumber b f)) = inr fd ->
  fd = withCategories (summary fd).
Proof.
  rewrite useFinanceData_run.
  destruct (error (rpc_get_finance_summary b));
    [destruct (error (from_postings_fbs b))|]; simpl fst; intro H;
    try discriminate H; injection H as <-; reflexivity.
Qed.

(** C3 (amended): the sum of the percentages has no bound of [100] (see
    the run above); what the resolver guarantees on either path is that,
    when [totalIncome + totalExpenses] of the returned summary is not
    positive, in particular when it is [0], every returned percentage is
    [0], and so is their sum. *)
Theorem percentage_zero_without_positive_total
    (toNumber : JsValue -> number) (b : Backend) (f : Filters)
    (fd : FinanceData) :
  fst (Eff.run (useFinanceData toNumber b f)) = inr fd ->
  totalIncome (summary fd) + totalExpenses (summary fd) <= 0 ->
  (forall c, In c (categories fd) -> percentage c = 0)
  /\ sumPercentage (categories fd) == 0.
Proof.
  intros Hrun Htotal.
  assert (Hzero : forall c, In c (categories fd) -> percentage c = 0).
  { intros c Hin. rewrite (useFinanceData_result _ _ _ _ Hrun) in Hin.
    rewrite (In_categories_percentage _ _ Hin).
    apply Qlt_bool_false_iff in Htotal. rewrite Htotal. reflexivity. }
  split; [exact Hzero|]. apply sumPercentage_zero, Hzero.
Qed.

Lemma percentage_zero_without_positive_total_witness :
  let fd := withCategories lossSummary in
  fst (Eff.run (useFinanceData toNumberModel (rpcBackend lossRow) noFilters))
    = inr fd
  /\ totalIncome (summary fd) + totalExpenses (summary fd) <= 0
  /\ In lossSalesShare (categories fd)
  /\ percentage lossSalesShare = 0
  /\ sumPercentage (categories fd) == 0.
Proof.
  intro fd.
  assert (Htotal : totalIncome (summary fd) + totalExpenses (summary fd) <= 0)
    by (vm_compute; discriminate).
  pose proof (percentage_zero_without_positive_total toNumberModel
                (rpcBackend lossRow) noFilters fd eq_refl Htotal)
    as [Hzero Hsum].
  split; [reflexivity|]. split; [exact Htotal|].
  split; [exact lossSalesShare_In|].
  split; [exact (Hzero lossSalesShare lossSalesShare_In)|exact Hsum].
Defined.

(** ** C6: the fallback path on one order *)

(** C6: when the RPC fails and the postings query returns the single row
    [{price: 100, quantity: 2, commission_amount: -10}], the resolver
    returns sales = totalIncome = 200, commissions = 10, delivery = 16,
    returns = 4, ads = 6, services = 10, totalExpenses = 46 and
    netProfit = 154; on every fallback summary the four detail expenses are
    0.08, 0.02, 0.03 and 0.05 of the sales total. *)
Theorem fallback_one_order
    (toNumber : JsValue -> number) (b : Backend) (f : Filters)
    (rpcError : JsError) :
  toNumber (jsnum 100) = Num 100 ->
  toNumber (jsnum 2) = Num 2 ->
  toNumber (jsnum (-10)) = Num (-10) ->
  error (rpc_get_finance_summary b) = Some rpcError ->
  from_postings_fbs b = succeeded [oneOrder] ->
  (exists fd,
     fst (Eff.run (useFinanceData toNumber b f)) = inr fd
     /\ sales (summary fd) == 200
     /\ totalIncome (summary fd) == 200
     /\ commissions (summary fd) == 10
     /\ delivery (summary fd) == 16
     /\ returns (summary fd) == 4
     /\ ads (summary fd) == 6
     /\ services (summary fd) == 10
     /\ totalExpenses (summary fd) == 46
     /\ netProfit (summary fd) == 154)
  /\ (forall d,
        delivery (postingsSummary toNumber d)
          == (8 # 100) * sales (postingsSummary toNumber d)
        /\ returns (postingsSummary toNumber d)
          == (2 # 100) * sales (postingsSummary toNumber d)
        /\ ads (postingsSummary toNumber d)
          == (3 # 100) * sales (postingsSummary toNumber d)
        /\ services (postingsSummary toNumber d)
          == (5 # 100) * sales (postingsSummary toNumber d)).
Proof.
  intros H100 H2 H10 Hrpc Hpost. split.
  - rewrite useFinanceData_run, Hrpc, Hpost. simpl fst.
    eexists. split; [reflexivity|].
    unfold withCategories, postingsSummary, reduceOr0, addSale, addCommission,
      num, oneOrder.
    cbn [summary sales totalIncome commissions delivery returns ads services
         totalExpenses netProfit data succeeded fold_left price quantity
         commission_amount].
    rewrite H100, H2, H10.
    vm_compute. repeat split; reflexivity.
  - intro d. simpl. repeat split; ring.
Qed.

Lemma fallback_one_order_witness :
  exists fd,
    fst (Eff.run (useFinanceData toNumberModel rpcDownBackend noFilters))
      = inr fd
    /\ sales (summary fd) == 200
    /\ totalIncome (summary fd) == 200
    /\ commissions (summary fd) == 10
    /\ delivery (summary fd) == 16
    /\ returns (summary fd) == 4
    /\ ads (summary fd) == 6
    /\ services (summary fd) == 10
    /\ totalExpenses (summary fd) == 46
    /\ netProfit (summary fd) == 154.
Proof.
  exact (proj1 (fallback_one_order toNumberModel rpcDownBackend noFilters
                  (mkJsError "rpc 404") eq_refl eq_refl eq_refl eq_refl
                  eq_refl)).
Defined.

(** ** C7 and C10: the ledger rows *)

Lemma strOr_truthy s d x :
  s = Some x -> x <> EmptyString -> strOr s d = x.
Proof.
  intros -> Hx. simpl. destruct (String.eqb x EmptyString) eqn:E; [|reflexivity].
  apply String.eqb_eq in E. contradiction.
Qed.

Lemma strOr_falsy s d : truthy s = false -> strOr s d = d.
Proof.
  destruct s as [x|]; simpl; [|reflexivity].
  destruct (String.eqb x EmptyString); [reflexivity|discriminate].
Qed.

(** The three amount columns of a mapped row, by the coerced amount. *)
Lemma mapTransaction_amounts toNumber today item :
  match toNumber (tx_amount item) with
  | NaN =>
      row_sales (mapTransaction toNumber today item) = 0
      /\ row_commissions (mapTransaction toNumber today item) = 0
      /\ row_net_profit (mapTransaction toNumber today item) = 0
  | Num q =>
      (0 < q -> row_sales (mapTransaction toNumber today item) = q)
      /\ (q <= 0 -> row_sales (mapTransaction toNumber today item) = 0)
      /\ (q < 0 ->
          row_commissions (mapTransaction toNumber today item) = Qabs q)
      /\ (0 <= q -> row_commissions (mapTransaction toNumber today item) = 0)
      /\ row_net_profit (mapTransaction toNumber today item) == q
  end.
Proof.
  unfold mapTransaction, num. simpl.
  destruct (toNumber (tx_amount item)) as [|q].
  - repeat split.
  - simpl gt0. simpl lt0. simpl numOr0.
    split; [|split; [|split; [|split]]].
    + intro H. apply Qlt_bool_iff in H. rewrite H. reflexivity.
    + intro H. apply Qlt_bool_false_iff in H. rewrite H. reflexivity.
    + intro H. apply Qlt_bool_iff in H. rewrite H. reflexivity.
    + intro H. apply Qlt_bool_false_iff in H. rewrite H. reflexivity.
    + apply orZero_Num.
Qed.

(** C7: a ledger entry whose coerced amount is [q] is mapped to a row with
    sales = [q] if [q > 0] else [0], commissions = [|q|] if [q < 0] else
    [0], the four detail columns [0] and netProfit = [q]; the operation
    type is the label if it is present and not empty, else the code if it
    is present and not empty, else ["N/A"].  In particular [-50] gives
    sales 0, commissions 50, netProfit -50, and [30] gives sales 30,
    commissions 0, netProfit 30. *)
Theorem ledger_row_mapping
    (toNumber : JsValue -> number) (today : string) (item : TransactionRow) :
  let r := mapTransaction toNumber today item in
  (forall q, toNumber (tx_amount item) = Num q ->
     (0 < q -> row_sales r == q)
     /\ (q <= 0 -> row_sales r == 0)
     /\ (q < 0 -> row_commissions r == Qabs q)
     /\ (0 <= q -> row_commissions r == 0)
     /\ row_net_profit r == q)
  /\ (row_delivery r = 0 /\ row_returns r = 0
      /\ row_ads r = 0 /\ row_services r = 0)
  /\ (forall label, operation_type_name item = Some label ->
        label <> EmptyString -> row_operation_type r = label)
  /\ (truthy (operation_type_name item) = false ->
      forall code, operation_type item = Some code ->
        code <> EmptyString -> row_operation_type r = code)
  /\ (truthy (operation_type_name item) = false ->
      truthy (operation_type item) = false ->
      row_operation_type r = "N/A"%string)
  /\ (toNumber (tx_amount item) = Num (-50) ->
      row_sales r == 0 /\ row_commissions r == 50 /\ row_net_profit r == -50)
  /\ (toNumber (tx_amount item) = Num 30 ->
      row_sales r == 30 /\ row_commissions r == 0 /\ row_net_profit r == 30).
Proof.
  intro r. subst r.
  pose proof (mapTransaction_amounts toNumber today item) as Hamt.
  split; [|split; [|split; [|split; [|split; [|split]]]]].
  - intros q Hq. rewrite Hq in Hamt.
    destruct Hamt as (H1 & H2 & H3 & H4 & H5).
    split; [|split; [|split; [|split]]].
    + intro H. rewrite (H1 H). reflexivity.
    + intro H. rewrite (H2 H). reflexivity.
    + intro H. rewrite (H3 H). reflexivity.
    + intro H. rewrite (H4 H). reflexivity.
    + exact H5.
  - repeat split.
  - intros label Hl Hne. simpl. apply strOr_truthy; assumption.
  - intros Hname code Hc Hne. simpl. rewrite (strOr_falsy _ _ Hname).
    apply strOr_truthy; assumption.
  - intros Hname Hcode. simpl.
    rewrite (strOr_falsy _ _ Hname). apply strOr_falsy, Hcode.
  - intro Hq. rewrite Hq in Hamt.
    destruct Hamt as (_ & H2 & H3 & _ & H5).
    rewrite H2 by (vm_compute; discriminate).
    rewrite H3 by reflexivity.
    split; [reflexivity|]. split; [reflexivity|exact H5].
  - intro Hq. rewrite Hq in Hamt.
    destruct Hamt as (H1 & _ & _ & H4 & H5).
    rewrite H1 by reflexivity.
    rewrite H4 by (vm_compute; discriminate).
    split; [reflexivity|]. split; [reflexivity|exact H5].
Qed.

Lemma ledger_row_mapping_witness :
  let fee := mapTransaction toNumberModel "2025-08-29" commissionEntry in
  let sale := mapTransaction toNumberModel "2025-08-29" saleEntry in
  let bare := mapTransaction toNumberModel "2025-08-29" bareEntry in
  (row_sales fee == 0 /\ row_commissions fee == 50
   /\ row_net_profit fee == -50
   /\ row_operation_type fee = "Комиссия"%string)
  /\ (row_sales sale == 30 /\ row_commissions sale == 0
      /\ row_net_profit sale == 30
      /\ row_operation_type sale = "OperationAgentDeliveredToCustomer"%string)
  /\ (row_sales bare == 0 /\ row_commissions bare == Qabs 0
      /\ row_operation_type bare = "N/A"%string).
Proof.
  intros fee sale bare.
  pose proof (ledger_row_mapping toNumberModel "2025-08-29" commissionEntry)
    as (_ & _ & HfeeLabel & _ & _ & Hfee & _).
  pose proof (ledger_row_mapping toNumberModel "2025-08-29" saleEntry)
    as (_ & _ & _ & HsaleCode & _ & _ & Hsale).
  pose proof (ledger_row_mapping toNumberModel "2025-08-29" bareEntry)
    as (Hbare & _ & _ & _ & HbareType & _ & _).
  destruct (Hfee eq_refl) as (Hf1 & Hf2 & Hf3).
  destruct (Hsale eq_refl) as (Hs1 & Hs2 & Hs3).
  destruct (Hbare 0 eq_refl) as (_ & Hb2 & _ & Hb4 & _).
  split; [|split].
  - split; [exact Hf1|]. split; [exact Hf2|]. split; [exact Hf3|].
    apply (HfeeLabel _ eq_refl). discriminate.
  - split; [exact Hs1|]. split; [exact Hs2|]. split; [exact Hs3|].
    apply (HsaleCode eq_refl _ eq_refl). discriminate.
  - split; [apply Hb2; vm_compute; discriminate|].
    split; [rewrite Hb4 by (vm_compute; discriminate); reflexivity|].
    exact (HbareType eq_refl eq_refl).
Defined.

Lemma In_useFinanceBreakdown toNumber today b rows r :
  fst (Eff.run (useFinanceBreakdown toNumber today b)) = inr rows ->
  In r rows ->
  exists item, r = mapTransaction toNumber today item.
Proof.
  rewrite useFinanceBreakdown_run. simpl.
  destruct (error (from_transactions b)); [discriminate|].
  intro H. injection H as <-. rewrite in_map_iff.
  intros (item & <- & _). exists item. reflexivity.
Qed.

(** C10: in every row the ledger resolver returns, sales and commissions
    are non-negative, at most one of them is not zero, and sales minus
    commissions is netProfit. *)
Theorem ledger_row_invariants
    (toNumber : JsValue -> number) (today : string) (b : Backend)
    (rows : list BreakdownRow) (r : BreakdownRow) :
  fst (Eff.run (useFinanceBreakdown toNumber today b)) = inr rows ->
  In r rows ->
  0 <= row_sales r
  /\ 0 <= row_commissions r
  /\ (row_sales r == 0 \/ row_commissions r == 0)
  /\ row_sales r - row_commissions r == row_net_profit r.
Proof.
  intros Hrun Hin.
  destruct (In_useFinanceBreakdown _ _ _ _ _ Hrun Hin) as [item ->].
  pose proof (mapTransaction_amounts toNumber today item) as Hamt.
  destruct (toNumber (tx_amount item)) as [|q].
  - destruct Hamt as (-> & -> & ->).
    repeat split; try lra.
  - destruct Hamt as (H1 & H2 & H3 & H4 & H5). rewrite H5.
    destruct (Qlt_le_dec 0 q) as [Hpos|Hle].
    + rewrite (H1 Hpos), (H4 (Qlt_le_weak _ _ Hpos)).
      repeat split; try lra.
    + rewrite (H2 Hle). destruct (Qlt_le_dec q 0) as [Hneg|Hge].
      * rewrite (H3 Hneg). rewrite Qabs_neg by lra.
        repeat split; try lra.
      * rewrite (H4 Hge). repeat split; try lra.
Qed.

Lemma ledger_row_invariants_witness :
  let rows := map (mapTransaction toNumberModel "2025-08-29")
                  [commissionEntry; saleEntry; bareEntry] in
  let r := mapTransaction toNumberModel "2025-08-29" commissionEntry in
  fst (Eff.run (useFinanceBreakdown toNumberModel "2025-08-29" ledgerBackend))
    = inr rows
  /\ In r rows
  /\ 0 <= row_sales r
  /\ 0 <= row_commissions r
  /\ (row_sales r == 0 \/ row_commissions r == 0)
  /\ row_sales r - row_commissions r == row_net_profit r.
Proof.
  intros rows r.
  assert (Hin : In r rows) by (left; reflexivity).
  split; [reflexivity|]. split; [exact Hin|].
  exact (ledger_row_invariants toNumberModel "2025-08-29" ledgerBackend
           rows r eq_refl Hin).
Defined.

(** * Further properties of the categories *)

Lemma pushed_isShown total entry :
  pushed total entry
  = if isShown entry
    then [shareOf total (fst entry) (snd entry)
                  (match CATEGORY_COLORS (fst entry) with
                   | Some col => col
                   | None => EmptyString
                   end)]
    else [].
Proof.
  destruct entry as [key value]. unfold pushed, pushCategory, isShown. simpl.
  destruct (CATEGORY_COLORS key); [|reflexivity].
  destruct (negb (Qeq_bool value 0)); reflexivity.
Qed.

Lemma length_flat_map_pushed total entries :
  List.length (flat_map (pushed total) entries) = List.length (filter isShown entries).
Proof.
  induction entries as [|e es IH]; simpl; [reflexivity|].
  rewrite length_app, IH, pushed_isShown.
  destruct (isShown e); reflexivity.
Qed.

Lemma length_categories s :
  List.length (categories (withCategories s))
  = List.length (filter isShown (Object_entries s)).
Proof.
  unfold withCategories. simpl categories.
  rewrite (Permutation_length (Array_sort_perm byAmountDesc _)).
  rewrite buildCategories_flat_map. apply length_flat_map_pushed.
Qed.

(** X1: every category field that is not zero has its share in the
    returned list, under the label and the colour of its key, with the
    field itself (sales) or its absolute value (the five others) as
    amount. *)
Theorem nonzero_category_shown
    (s : FinanceSummary) (key : SummaryKey) (value : Q)
    (label col : string) :
  In (key, value) (Object_entries s) ->
  CATEGORY_LABELS key = Some label ->
  CATEGORY_COLORS key = Some col ->
  ~ value == 0 ->
  exists c,
    In c (categories (withCategories s))
    /\ category c = label /\ color c = col
    /\ amount c = (if isSales key then value else Qabs value).
Proof.
  intros Hin Hlabel Hcol Hnz.
  exists (shareOf (totalIncome s + totalExpenses s) key value col).
  split.
  - apply In_categories. exists key, value, col. repeat split; assumption.
  - simpl. rewrite Hlabel. repeat split.
Qed.

Lemma nonzero_category_shown_witness :
  exists c,
    In c (categories (withCategories oneOrderSummary))
    /\ category c = "Комиссии"%string /\ color c = "#ef4444"%string
    /\ amount c = Qabs (commissions oneOrderSummary).
Proof.
  apply (nonzero_category_shown oneOrderSummary Kcommissions
           (commissions oneOrderSummary) "Комиссии" "#ef4444").
  - simpl. right. left. reflexivity.
  - reflexivity.
  - reflexivity.
  - vm_compute. discriminate.
Defined.

(** X2: the returned list has one share for each category field that is
    not zero, hence at most six, and it is empty exactly when all six
    category fields are zero. *)
Theorem categories_count (s : FinanceSummary) :
  List.length (categories (withCategories s))
  = List.length (filter isShown (Object_entries s))
  /\ (List.length (categories (withCategories s)) <= 6)%nat
  /\ (categories (withCategories s) = []
      <-> sales s == 0 /\ commissions s == 0 /\ delivery s == 0
          /\ returns s == 0 /\ ads s == 0 /\ services s == 0).
Proof.
  split; [apply length_categories|]. split.
  - rewrite length_categories.
    change (Object_entries s)
      with ([ (Ksales, sales s); (Kcommissions, commissions s);
              (Kdelivery, delivery s); (Kreturns, returns s);
              (Kads, ads s); (Kservices, services s) ]
            ++ [ (KtotalIncome, totalIncome s);
                 (KtotalExpenses, totalExpenses s);
                 (KnetProfit, netProfit s) ]).
    rewrite filter_app, List.length_app.
    match goal with
    | |- (List.length (filter ?f ?l) + _ <= _)%nat =>
        pose proof (filter_length_le f l) as Hle
    end.
    simpl in Hle |- *. lia.
  - split.
    + intro Hnil.
      assert (Hnone : forall key value col,
                 In (key, value) (Object_entries s) ->
                 CATEGORY_COLORS key = Some col -> value == 0).
      { intros key value col Hin Hcol.
        destruct (Qeq_dec value 0) as [Hz|Hnz]; [assumption|].
        exfalso.
        assert (Hc : In (shareOf (totalIncome s + totalExpenses s)
                                 key value col)
                        (categories (withCategories s)))
          by (apply In_categories; exists key, value, col;
              repeat split; assumption).
        rewrite Hnil in Hc. exact Hc. }
      repeat split.
      * apply (Hnone Ksales _ "#10b981"%string); simpl; auto.
      * apply (Hnone Kcommissions _ "#ef4444"%string); simpl; auto.
      * apply (Hnone Kdelivery _ "#f59e0b"%string); simpl; auto.
      * apply (Hnone Kreturns _ "#8b5cf6"%string); simpl; auto 6.
      * apply (Hnone Kads _ "#06b6d4"%string); simpl; auto 7.
      * apply (Hnone Kservices _ "#84cc16"%string); simpl; auto 8.
    + intros (H1 & H2 & H3 & H4 & H5 & H6).
      destruct (categories (withCategories s)) as [|c cs] eqn:E;
        [reflexivity|].
      exfalso.
      assert (Hc : In c (categories (withCategories s)))
        by (rewrite E; left; reflexivity).
      apply In_categories in Hc.
      destruct Hc as (key & value & col & Hin & Hcol & Hnz & _).
      simpl in Hin.
      repeat (destruct Hin as [Hin|Hin];
              [injection Hin as <- <-;
               first [contradiction | discriminate Hcol]|]).
      exact Hin.
Qed.

Lemma Object_entries_keys_NoDup s : NoDup (map fst (Object_entries s)).
Proof.
  simpl. repeat constructor; simpl; intuition discriminate.
Qed.

Lemma flat_map_pushed_filter total entries :
  flat_map (pushed total) entries
  = map (fun entry =>
           shareOf total (fst entry) (snd entry)
                   (match CATEGORY_COLORS (fst entry) with
                    | Some col => col
                    | None => EmptyString
                    end))
        (filter isShown entries).
Proof.
  induction entries as [|e es IH]; simpl; [reflexivity|].
  rewrite IH, pushed_isShown. destruct (isShown e); reflexivity.
Qed.

(** X3: the labels of the returned shares are pairwise different, and every
    share carries the label and the colour of one and the same category
    key. *)
Theorem category_labels_distinct (s : FinanceSummary) :
  NoDup (map category (categories (withCategories s)))
  /\ forall c, In c (categories (withCategories s)) ->
       exists key,
         CATEGORY_LABELS key = Some (category c)
         /\ CATEGORY_COLORS key = Some (color c).
Proof.
  split.
  - unfold withCategories. simpl categories.
    apply (Permutation_NoDup
             (Permutation_map category
                (Permutation_sym (Array_sort_perm byAmountDesc _)))).
    rewrite buildCategories_flat_map, flat_map_pushed_filter, map_map.
    apply NoDup_map_NoDup_ForallPairs.
    + intros e1 e2 H1 H2 Hcat.
      apply filter_In in H1. destruct H1 as [Hin1 Hs1].
      apply filter_In in H2. destruct H2 as [Hin2 Hs2].
      destruct e1 as [k1 v1], e2 as [k2 v2].
      unfold isShown in Hs1, Hs2. simpl in Hs1, Hs2, Hcat.
      destruct (CATEGORY_COLORS k1) as [c1|] eqn:E1; [|discriminate].
      destruct (CATEGORY_COLORS k2) as [c2|] eqn:E2; [|discriminate].
      destruct (CATEGORY_LABELS_defined _ _ E1) as [l1 Hl1].
      destruct (CATEGORY_LABELS_defined _ _ E2) as [l2 Hl2].
      rewrite Hl1, Hl2 in Hcat. subst l2.
      assert (k1 = k2) by (eapply CATEGORY_LABELS_inj; eassumption).
      subst k2. f_equal.
      eapply Object_entries_functional; eassumption.
    + apply NoDup_filter.
      apply (NoDup_map_inv fst), Object_entries_keys_NoDup.
  - intros c Hin. apply In_categories in Hin.
    destruct Hin as (key & value & col & _ & Hcol & _ & ->).
    destruct (CATEGORY_LABELS_defined _ _ Hcol) as [l Hl].
    exists key. simpl. rewrite Hl. split; [reflexivity|assumption].
Qed.

Lemma category_labels_distinct_witness :
  In oneOrderSalesShare (categories (withCategories oneOrderSummary))
  /\ exists key,
       CATEGORY_LABELS key = Some (category oneOrderSalesShare)
       /\ CATEGORY_COLORS key = Some (color oneOrderSalesShare).
Proof.
  split; [exact oneOrderSalesShare_In|].
  exact (proj2 (category_labels_distinct oneOrderSummary)
               oneOrderSalesShare oneOrderSalesShare_In).
Defined.

Lemma StronglySorted_impl_In {A : Type} (R R' : A -> A -> Prop) l :
  (forall a b, In a l -> In b l -> R a b -> R' a b) ->
  StronglySorted R l -> StronglySorted R' l.
Proof.
  intros Himpl Hs. induction Hs as [|x xs Hs IH Hall].
  - constructor.
  - constructor.
    + apply IH. intros a b Ha Hb. apply Himpl; right; assumption.
    + rewrite Forall_forall in *. intros y Hy.
      apply Himpl; [left; reflexivity|right; assumption|apply Hall, Hy].
Qed.

(** X4: the returned list is non-increasing by percentage too: a share
    with a larger amount never has a smaller percentage. *)
Theorem categories_sorted_by_percentage (s : FinanceSummary) :
  StronglySorted percentageGe (categories (withCategories s)).
Proof.
  apply (StronglySorted_impl_In amountGe).
  - intros a b Ha Hb Hab. unfold percentageGe, amountGe in *.
    rewrite (In_categories_percentage s a Ha).
    rewrite (In_categories_percentage s b Hb).
    destruct (Qlt_bool 0 (totalIncome s + totalExpenses s)) eqn:E; [|lra].
    apply Qlt_bool_iff in E.
    apply Qmult_le_compat_r; [|lra].
    apply Qmult_le_compat_r; [assumption|].
    apply Qlt_le_weak, Qinv_lt_0_compat, E.
  - apply Array_sort_amount_sorted.
Qed.

(** ** Order of shares with equal amounts *)

Lemma before_cons {A : Type} (a b y : A) l :
  before a b l -> before a b (y :: l).
Proof.
  intros (l1 & l2 & l3 & ->). exists (y :: l1), l2, l3. reflexivity.
Qed.

Lemma before_head {A : Type} (a b : A) l : In b l -> before a b (a :: l).
Proof.
  intro Hin. apply in_split in Hin. destruct Hin as (l2 & l3 & ->).
  exists [], l2, l3. reflexivity.
Qed.

Lemma before_cons_inv {A : Type} (a b y : A) l :
  before a b (y :: l) -> (a = y /\ In b l) \/ before a b l.
Proof.
  intros (l1 & l2 & l3 & H). destruct l1 as [|z l1]; simpl in H.
  - injection H as <- ->. left. split; [reflexivity|].
    apply in_or_app. right. left. reflexivity.
  - injection H as <- ->. right. exists l1, l2, l3. reflexivity.
Qed.

Lemma before_insertBy {A : Type} (cmp : A -> A -> Q) x l a b :
  before a b (insertBy cmp x l) ->
  before a b l
  \/ (a = x /\ In b l)
  \/ (b = x /\ In a l /\ Qle_bool (cmp x a) 0 = false).
Proof.
  induction l as [|y ys IH]; simpl.
  - intros (l1 & l2 & l3 & H). exfalso.
    apply (f_equal (@List.length A)) in H.
    rewrite List.length_app in H. simpl in H.
    rewrite List.length_app in H. simpl in H. lia.
  - destruct (Qle_bool (cmp x y) 0) eqn:E; intro H.
    + apply before_cons_inv in H. destruct H as [[-> Hb]|H].
      * right. left. split; [reflexivity|exact Hb].
      * left. exact H.
    + apply before_cons_inv in H. destruct H as [[-> Hb]|H].
      * apply (Permutation_in _ (insertBy_perm cmp x ys)) in Hb.
        destruct Hb as [<-|Hb].
        -- right. right. split; [reflexivity|].
           split; [left; reflexivity|exact E].
        -- left. apply before_head, Hb.
      * destruct (IH H) as [H'|[[-> Hb]|(-> & Ha & Hc)]].
        -- left. apply before_cons, H'.
        -- right. left. split; [reflexivity|right; exact Hb].
        -- right. right. split; [reflexivity|].
           split; [right; exact Ha|exact Hc].
Qed.

Lemma Array_sort_stable l a b :
  before a b (Array_sort byAmountDesc l) ->
  amount a == amount b ->
  before a b l.
Proof.
  induction l as [|x xs IH]; simpl; intros H Htie.
  - destruct H as (l1 & l2 & l3 & H). destruct l1; discriminate H.
  - apply before_insertBy in H.
    destruct H as [H|[[-> Hb]|(-> & Ha & Hc)]].
    + apply before_cons, IH; assumption.
    + apply before_head. apply (In_Array_sort byAmountDesc). exact Hb.
    + exfalso. unfold byAmountDesc in Hc.
      assert (Ht : Qle_bool (amount a - amount x) 0 = true)
        by (apply Qle_bool_iff; lra).
      congruence.
Qed.

(** X5: shares with equal amounts keep the order in which they were
    pushed, that of the keys sales, commissions, delivery, returns, ads,
    services: if [a] stands in front of [b] in the returned list and both
    have the same amount, [a] was pushed before [b]. *)
Theorem categories_ties_keep_order
    (s : FinanceSummary) (a b : FinanceCategory) :
  before a b (categories (withCategories s)) ->
  amount a == amount b ->
  before a b (buildCategories s).
Proof.
  unfold withCategories. simpl categories. apply Array_sort_stable.
Qed.

Lemma categories_ties_keep_order_witness :
  let l := categories (withCategories oneOrderSummary) in
  let a := nth 2 l oneOrderSalesShare in
  let b := nth 3 l oneOrderSalesShare in
  category a = "Комиссии"%string
  /\ category b = "Услуги"%string
  /\ before a b l
  /\ amount a == amount b
  /\ before a b (buildCategories oneOrderSummary).
Proof.
  intros l a b.
  assert (Hbefore : before a b l)
    by (exists (firstn 2 l), [], (skipn 4 l); reflexivity).
  assert (Htie : amount a == amount b) by reflexivity.
  split; [reflexivity|]. split; [reflexivity|].
  split; [exact Hbefore|]. split; [exact Htie|].
  exact (categories_ties_keep_order oneOrderSummary a b Hbefore Htie).
Defined.

(** * Further properties of the fallback path *)

(** X7: when the RPC fails and the postings query succeeds without rows
    (an empty array or no data at all), the resolver does not fail: it
    returns a summary whose nine fields are zero and an empty list of
    categories. *)
Theorem fallback_no_rows
    (toNumber : JsValue -> number) (b : Backend) (f : Filters)
    (rpcError : JsError) :
  error (rpc_get_finance_summary b) = Some rpcError ->
  error (from_postings_fbs b) = None ->
  data (from_postings_fbs b) = None \/ data (from_postings_fbs b) = Some [] ->
  exists fd,
    fst (Eff.run (useFinanceData toNumber b f)) = inr fd
    /\ summaryEq (summary fd) zeroSummary
    /\ categories fd = [].
Proof.
  intros Hrpc Hpost Hdata.
  rewrite useFinanceData_run, Hrpc, Hpost. simpl fst.
  eexists. split; [reflexivity|].
  destruct Hdata as [-> | ->]; split;
    try reflexivity; vm_compute; repeat split; reflexivity.
Qed.

Lemma fallback_no_rows_witness :
  exists fd,
    fst (Eff.run (useFinanceData toNumberModel noRowsBackend noFilters))
      = inr fd
    /\ summaryEq (summary fd) zeroSummary
    /\ categories fd = [].
Proof.
  exact (fallback_no_rows toNumberModel noRowsBackend noFilters
           (mkJsError "rpc 404") eq_refl eq_refl (or_intror eq_refl)).
Defined.

(** X9: on the fallback path total income is the sales total and the
    commissions are never negative, whatever the sign of the stored
    commission amounts; with a non-negative sales total the four derived
    expenses are non-negative, total expenses are at least the commissions
    and net profit does not exceed total income. *)
Theorem fallback_signs
    (toNumber : JsValue -> number) (d : option (list PostingRow)) :
  totalIncome (postingsSummary toNumber d) = sales (postingsSummary toNumber d)
  /\ 0 <= commissions (postingsSummary toNumber d)
  /\ (0 <= sales (postingsSummary toNumber d) ->
      0 <= delivery (postingsSummary toNumber d)
      /\ 0 <= returns (postingsSummary toNumber d)
      /\ 0 <= ads (postingsSummary toNumber d)
      /\ 0 <= services (postingsSummary toNumber d)
      /\ commissions (postingsSummary toNumber d)
         <= totalExpenses (postingsSummary toNumber d)
      /\ netProfit (postingsSummary toNumber d)
         <= totalIncome (postingsSummary toNumber d)).
Proof.
  pose proof (postings_commissions_nonneg toNumber d) as HC.
  set (s := postingsSummary toNumber d) in *.
  assert (Hd : delivery s == sales s * (8 # 100)) by reflexivity.
  assert (Hr : returns s == sales s * (2 # 100)) by reflexivity.
  assert (Ha : ads s == sales s * (3 # 100)) by reflexivity.
  assert (Hv : services s == sales s * (5 # 100)) by reflexivity.
  assert (Hi : totalIncome s == sales s) by reflexivity.
  assert (He : totalExpenses s
               == commissions s + delivery s + returns s + ads s
                  + services s) by reflexivity.
  assert (Hn : netProfit s == sales s - totalExpenses s) by reflexivity.
  split; [reflexivity|]. split; [exact HC|].
  intro HS. repeat split; lra.
Qed.

Lemma fallback_signs_witness :
  0 <= sales oneOrderSummary
  /\ commissions oneOrderSummary <= totalExpenses oneOrderSummary
  /\ netProfit oneOrderSummary <= totalIncome oneOrderSummary.
Proof.
  assert (HS : 0 <= sales oneOrderSummary) by (vm_compute; discriminate).
  pose proof (proj2 (proj2 (fallback_signs toNumberModel (Some [oneOrder])))
                HS) as (_ & _ & _ & _ & He & Hn).
  split; [exact HS|]. split; [exact He|exact Hn].
Defined.

(** * Further properties of the ledger rows *)

Lemma mapTransaction_balance toNumber today item :
  row_sales (mapTransaction toNumber today item)
  - row_commissions (mapTransaction toNumber today item)
  == row_net_profit (mapTransaction toNumber today item)
  /\ row_sales (mapTransaction toNumber today item)
     + row_commissions (mapTransaction toNumber today item)
     == Qabs (row_net_profit (mapTransaction toNumber today item)).
Proof.
  pose proof (mapTransaction_amounts toNumber today item) as Hamt.
  destruct (toNumber (tx_amount item)) as [|q].
  - destruct Hamt as (-> & -> & ->). split; reflexivity.
  - destruct Hamt as (H1 & H2 & H3 & H4 & H5). rewrite H5.
    destruct (Qlt_le_dec 0 q) as [Hpos|Hle].
    + rewrite (H1 Hpos), (H4 (Qlt_le_weak _ _ Hpos)).
      rewrite Qabs_pos by lra. split; ring.
    + rewrite (H2 Hle). destruct (Qlt_le_dec q 0) as [Hneg|Hge].
      * rewrite (H3 Hneg). rewrite Qabs_neg by lra. split; ring.
      * rewrite (H4 Hge). rewrite Qabs_pos by lra.
        assert (q == 0) by lra. split; lra.
Qed.

Lemma sumOf_map_balance toNumber today items :
  sumOf row_net_profit (map (mapTransaction toNumber today) items)
  == sumOf row_sales (map (mapTransaction toNumber today) items)
     - sumOf row_commissions (map (mapTransaction toNumber today) items).
Proof.
  unfold sumOf.
  induction items as [|item items IH]; cbn [map fold_right]; [ring|].
  destruct (mapTransaction_balance toNumber today item) as [Hb _]. lra.
Qed.

(** X10: the ledger resolver returns one row per fetched entry, in the
    order fetched (none when the query answers without data); over the
    returned rows the net profits add up to the sales total minus the
    commissions total, and in every row sales plus commissions is the
    magnitude of the net profit. *)
Theorem ledger_totals
    (toNumber : JsValue -> number) (today : string) (b : Backend)
    (rows : list BreakdownRow) :
  fst (Eff.run (useFinanceBreakdown toNumber today b)) = inr rows ->
  rows = map (mapTransaction toNumber today)
             (match data (from_transactions b) with
              | Some fetched => fetched
              | None => []
              end)
  /\ List.length rows
     = List.length (match data (from_transactions b) with
                    | Some fetched => fetched
                    | None => []
                    end)
  /\ sumOf row_net_profit rows
     == sumOf row_sales rows - sumOf row_commissions rows
  /\ forall r, In r rows ->
       row_sales r + row_commissions r == Qabs (row_net_profit r).
Proof.
  rewrite useFinanceBreakdown_run. simpl fst.
  destruct (error (from_transactions b)); [discriminate|].
  intro H. injection H as <-.
  split; [reflexivity|]. split; [apply length_map|].
  split; [apply sumOf_map_balance|].
  intros r Hin. apply in_map_iff in Hin. destruct Hin as (item & <- & _).
  apply mapTransaction_balance.
Qed.

Lemma ledger_totals_witness :
  let rows := map (mapTransaction toNumberModel "2025-08-29")
                  [commissionEntry; saleEntry; bareEntry] in
  fst (Eff.run (useFinanceBreakdown toNumberModel "2025-08-29" ledgerBackend))
    = inr rows
  /\ List.length rows = 3%nat
  /\ sumOf row_net_profit rows
     == sumOf row_sales rows - sumOf row_commissions rows.
Proof.
  intro rows.
  pose proof (ledger_totals toNumberModel "2025-08-29" ledgerBackend rows
                eq_refl) as (_ & Hlen & Hsum & _).
  split; [reflexivity|]. split; [exact Hlen|exact Hsum].
Defined.

Lemma strOr_nonempty s d : d <> EmptyString -> strOr s d <> EmptyString.
Proof.
  intro Hd. destruct s as [x|]; simpl; [|exact Hd].
  destruct (String.eqb x EmptyString) eqn:E; [exact Hd|].
  apply String.eqb_neq in E. exact E.
Qed.

(** X11: no returned ledger row has an empty operation type or an empty
    posting number: each keeps the value of the entry when that is present
    and not empty and is ["N/A"] otherwise.  The date of a row is the
    operation date of the entry when that is present and not empty, and
    the current date otherwise. *)
Theorem ledger_defaults
    (toNumber : JsValue -> number) (today : string) (item : TransactionRow) :
  row_operation_type (mapTransaction toNumber today item) <> EmptyString
  /\ row_posting_number (mapTransaction toNumber today item) <> EmptyString
  /\ (forall p, posting_number item = Some p -> p <> EmptyString ->
        row_posting_number (mapTransaction toNumber today item) = p)
  /\ (truthy (posting_number item) = false ->
      row_posting_number (mapTransaction toNumber today item) = "N/A"%string)
  /\ (forall d, operation_date item = Some d -> d <> EmptyString ->
        date_msk (mapTransaction toNumber today item) = d)
  /\ (truthy (operation_date item) = false ->
      date_msk (mapTransaction toNumber today item) = today).
Proof.
  simpl. split; [|split; [|split; [|split; [|split]]]].
  - apply strOr_nonempty, strOr_nonempty. discriminate.
  - apply strOr_nonempty. discriminate.
  - intros p Hp Hne. apply strOr_truthy; assumption.
  - apply strOr_falsy.
  - intros d Hd Hne. apply strOr_truthy; assumption.
  - apply strOr_falsy.
Qed.

Lemma ledger_defaults_witness :
  row_posting_number (mapTransaction toNumberModel "2025-08-29" commissionEntry)
    = "0042-1"%string
  /\ date_msk (mapTransaction toNumberModel "2025-08-29" commissionEntry)
     = "2025-08-01"%string
  /\ row_posting_number (mapTransaction toNumberModel "2025-08-29" bareEntry)
     = "N/A"%string
  /\ date_msk (mapTransaction toNumberModel "2025-08-29" bareEntry)
     = "2025-08-29"%string.
Proof.
  pose proof (ledger_defaults toNumberModel "2025-08-29" commissionEntry)
    as (_ & _ & Hp & _ & Hd & _).
  pose proof (ledger_defaults toNumberModel "2025-08-29" bareEntry)
    as (_ & _ & _ & Hp' & _ & Hd').
  split; [apply (Hp _ eq_refl); discriminate|].
  split; [apply (Hd _ eq_refl); discriminate|].
  split; [exact (Hp' eq_refl)|exact (Hd' eq_refl)].
Defined.

(** * The chart under a change of unit or of sign convention *)







Example flipped_chart_labels :
  map category (categories (withCategories flippedSummary))
  = map category (categories (withCategories oneOrderSummary)).
Proof. reflexivity. Qed.

(** * Further properties of the two paths *)

(** X13: when the RPC succeeds without rows (an empty array or no data)
    and [toNumber] sends [undefined] to [0] or to [NaN], the resolver
    returns the summary with all nine fields [0] and an empty list of
    categories, and the postings table is not queried. *)
Theorem primary_no_rows
    (toNumber : JsValue -> number) (b : Backend) (f : Filters) :
  toNumber JsUndefined = NaN \/ toNumber JsUndefined = Num 0 ->
  error (rpc_get_finance_summary b) = None ->
  data (rpc_get_finance_summary b) = None
  \/ data (rpc_get_finance_summary b) = Some [] ->
  Eff.run (useFinanceData toNumber b f)
  = (inr {| summary := zeroSummary; categories := [] |}, [CallRpc]).
Proof.
  intros Hundef Herr Hdata.
  rewrite useFinanceData_run, Herr.
  assert (Hnum : num toNumber JsUndefined = 0)
    by (unfold num; destruct Hundef as [-> | ->]; reflexivity).
  assert (Hsum : rpcSummary toNumber (data (rpc_get_finance_summary b))
                 = zeroSummary).
  { unfold rpcSummary.
    assert (Hrow : firstRow (data (rpc_get_finance_summary b)) = emptyObject)
      by (destruct Hdata as [-> | ->]; reflexivity).
    rewrite Hrow. simpl. rewrite Hnum. reflexivity. }
  rewrite Hsum. reflexivity.
Qed.

Lemma primary_no_rows_witness :
  Eff.run (useFinanceData toNumberModel emptyRpcBackend noFilters)
  = (inr {| summary := zeroSummary; categories := [] |}, [CallRpc]).
Proof.
  exact (primary_no_rows toNumberModel emptyRpcBackend noFilters
           (or_intror eq_refl) eq_refl (or_intror eq_refl)).
Defined.


Lemma nonneg_nonzero_pos x : 0 <= x -> ~ x == 0 -> 0 < x.
Proof.
  intros Hx Hnz. destruct (Qlt_le_dec 0 x) as [H|H]; [assumption|].
  exfalso. apply Hnz. lra.
Qed.

Lemma ratio_bounds a t :
  0 < t -> 0 <= a -> a <= t -> 0 <= (a / t) * 100 /\ (a / t) * 100 <= 100.
Proof.
  intros Ht Ha Hat.
  assert (H0 : 0 <= a / t) by (apply Qle_shift_div_l; [assumption|lra]).
  assert (H1 : a / t <= 1) by (apply Qle_shift_div_r; [assumption|lra]).
  split; lra.
Qed.

(** X15: on the fallback path with a non-negative sales total every
    returned share has a positive amount, at most
    [totalIncome + totalExpenses], and a percentage between [0] and
    [100]. *)
Theorem fallback_shares_in_range
    (toNumber : JsValue -> number) (d : option (list PostingRow))
    (c : FinanceCategory) :
  0 <= sales (postingsSummary toNumber d) ->
  In c (categories (withCategories (postingsSummary toNumber d))) ->
  0 < amount c
  /\ amount c <= totalIncome (postingsSummary toNumber d)
                 + totalExpenses (postingsSummary toNumber d)
  /\ 0 <= percentage c /\ percentage c <= 100.
Proof.
  intros HS Hin.
  pose proof (postings_commissions_nonneg toNumber d) as HC.
  pose proof (In_categories_percentage _ _ Hin) as Hpct.
  set (s := postingsSummary toNumber d) in *.
  assert (Hd : delivery s == sales s * (8 # 100)) by reflexivity.
  assert (Hr : returns s == sales s * (2 # 100)) by reflexivity.
  assert (Ha : ads s == sales s * (3 # 100)) by reflexivity.
  assert (Hv : services s == sales s * (5 # 100)) by reflexivity.
  assert (Hi : totalIncome s == sales s) by reflexivity.
  assert (He : totalExpenses s
               == commissions s + delivery s + returns s + ads s
                  + services s) by reflexivity.
  assert (Hamount : 0 < amount c
                    /\ amount c <= totalIncome s + totalExpenses s).
  { apply In_categories in Hin.
    destruct Hin as (key & value & col & Hin & Hcol & Hnz & ->).
    cbn [amount shareOf].
    unfold Object_entries in Hin. cbn [In] in Hin.
    repeat (destruct Hin as [Hin|Hin];
            [apply pair_equal_spec in Hin; destruct Hin as [<- <-];
             try discriminate Hcol;
             cbn [isSales];
             match goal with
             | Hz : ~ ?v == 0 |- _ =>
                 assert (0 < v) by (apply nonneg_nonzero_pos; [lra|exact Hz])
             end;
             rewrite ?(Qabs_pos (commissions s)), ?(Qabs_pos (delivery s)),
                     ?(Qabs_pos (returns s)), ?(Qabs_pos (ads s)),
                     ?(Qabs_pos (services s)) by lra;
             split; lra|]).
    contradiction. }
  destruct Hamount as [Hpos Hle].
  split; [exact Hpos|]. split; [exact Hle|].
  rewrite Hpct.
  destruct (Qlt_bool 0 (totalIncome s + totalExpenses s)) eqn:E; [|lra].
  apply Qlt_bool_iff in E. apply ratio_bounds; lra.
Qed.

Lemma fallback_shares_in_range_witness :
  0 <= sales oneOrderSummary
  /\ In oneOrderSalesShare (categories (withCategories oneOrderSummary))
  /\ 0 < amount oneOrderSalesShare
  /\ amount oneOrderSalesShare
     <= totalIncome oneOrderSummary + totalExpenses oneOrderSummary
  /\ 0 <= percentage oneOrderSalesShare
  /\ percentage oneOrderSalesShare <= 100.
Proof.
  assert (HS : 0 <= sales oneOrderSummary) by (vm_compute; discriminate).
  split; [exact HS|]. split; [exact oneOrderSalesShare_In|].
  exact (fallback_shares_in_range toNumberModel (Some [oneOrder])
           oneOrderSalesShare HS oneOrderSalesShare_In).
Defined.